(** * A shallow embedding of [fabfile.py]

  The fabfile drives two services (the collector and the webserver daemon)
  on a remote host: it kills them, fetches their sources, compiles them and
  launches them again.  Everything it does is a call to the remote
  execution library ([run], [cd] and the settings object [env] of
  [fabric.api]), so the embedding has three layers:

  - [PyStr]: Python's [fmt % arg] for a string argument, which the fabfile
    uses to derive paths and command lines;
  - [Fabric]: the remote execution library seen from the fabfile: which
    commands are handed to it, in which directory scope, and whether its
    call returns or raises.  What the remote host answers is a parameter;
  - [Fabfile]: the module-level settings and the five tasks. *)

From Stdlib Require Import String Ascii List ZArith Bool Lia Permutation.
Import ListNotations.

Local Open Scope string_scope.
Local Open Scope list_scope.

(* ------------------------------------------------------------------ *)
(** ** Python string formatting *)

Module PyStr.

(** The ways [fmt % arg] can raise.  The last one is not a Python error:
    it marks a conversion that this embedding does not interpret (the
    fabfile only uses [%s]). *)
Inductive fmt_error : Type :=
| NotEnoughArguments
| NotAllArgumentsConverted
| IncompleteFormat
| UnsupportedConversion (c : ascii).

Definition fmt_result : Type := (fmt_error + string)%type.

Definition emit (c : ascii) (r : fmt_result) : fmt_result :=
  match r with
  | inr s => inr (String c s)
  | inl e => inl e
  end.

Definition splice (a : string) (r : fmt_result) : fmt_result :=
  match r with
  | inr s => inr (a ++ s)%string
  | inl e => inl e
  end.

(** [format_from fmt arg] scans [fmt] from left to right; [arg] is the
    argument still to be consumed, if any.  [%s] consumes it, [%%] stands
    for a percent sign, any other character is copied. *)
Fixpoint format_from (fmt : string) (arg : option string) : fmt_result :=
  match fmt with
  | EmptyString =>
      match arg with
      | None => inr EmptyString
      | Some _ => inl NotAllArgumentsConverted
      end
  | String "%"%char EmptyString => inl IncompleteFormat
  | String "%"%char (String "s"%char rest) =>
      match arg with
      | Some a => splice a (format_from rest None)
      | None => inl NotEnoughArguments
      end
  | String "%"%char (String "%"%char rest) =>
      emit "%"%char (format_from rest arg)
  | String "%"%char (String c _) => inl (UnsupportedConversion c)
  | String c rest => emit c (format_from rest arg)
  end.

(** [fmt % arg] where [arg] is a string (not a tuple, not a mapping). *)
Definition format (fmt arg : string) : fmt_result :=
  format_from fmt (Some arg).

(** No percent sign occurs in the string. *)
Fixpoint plain (s : string) : bool :=
  match s with
  | EmptyString => true
  | String c rest => negb (c =? "%")%char && plain rest
  end.

End PyStr.

(* ------------------------------------------------------------------ *)
(** ** The remote execution library, as the fabfile sees it *)

Module Fabric.

(** One call of [run], as the library receives it: the remote user taken
    from [env.user] at the time of the call, the enclosing [cd] scopes
    (innermost first), the command line, and the [pty] keyword argument
    ([None] when the caller leaves it to the library's default). *)
Record Issued : Type := mkIssued {
  remote_user : string;
  scope : list string;
  command : string;
  pty : option bool
}.

(** What a call of [run] does from the caller's side: it returns a result
    carrying the remote return code, or it raises. *)
Inductive Outcome : Type :=
| Returns (return_code : Z)
| Raises.

(** The remote side: given the calls made so far and the call being made,
    the outcome of that call. *)
Definition Channel : Type := list Issued -> Issued -> Outcome.

(** The settings the fabfile stores in [env]. *)
Record Env : Type := mkEnv {
  user : string;
  tsuru_path : string;
  collector_path : string;
  webserverd_path : string
}.

(** The state a task runs in: the settings, the stack of open [cd]
    scopes, and the calls of [run] made so far (oldest first). *)
Record World : Type := mkWorld {
  env : Env;
  cwd : list string;
  issued : list Issued
}.

Inductive Exn : Type :=
| RemoteFailure (i : Issued)
| FormatError (e : PyStr.fmt_error).

Inductive Result (A : Type) : Type :=
| Normal (a : A)
| Raised (e : Exn).
Arguments Normal {A} a.
Arguments Raised {A} e.

(** A computation reads the channel, updates the world, and returns or
    raises.  The world survives an exception. *)
Definition Fab (A : Type) : Type := Channel -> World -> Result A * World.

Definition ret {A : Type} (a : A) : Fab A := fun _ w => (Normal a, w).

Definition raise {A : Type} (e : Exn) : Fab A := fun _ w => (Raised e, w).

Definition bind {A B : Type} (m : Fab A) (k : A -> Fab B) : Fab B :=
  fun ch w =>
    match m ch w with
    | (Normal a, w') => k a ch w'
    | (Raised e, w') => (Raised e, w')
    end.

(** A statement whose value is discarded, followed by the next one. *)
Definition seq {A B : Type} (m : Fab A) (k : Fab B) : Fab B :=
  bind m (fun _ => k).

Definition read_env : Fab Env := fun _ w => (Normal (env w), w).

(** [fmt % arg] as an expression inside a task. *)
Definition format (fmt arg : string) : Fab string :=
  match PyStr.format fmt arg with
  | inr s => ret s
  | inl e => raise (FormatError e)
  end.

(** [run(command)] / [run(command, pty=...)]: the call is recorded, then
    the channel decides whether it returns or raises. *)
Definition run_with (pty : option bool) (command : string) : Fab Z :=
  fun ch w =>
    let i := mkIssued (user (env w)) (cwd w) command pty in
    let w' := mkWorld (env w) (cwd w) (issued w ++ [i]) in
    match ch (issued w) i with
    | Returns rc => (Normal rc, w')
    | Raises => (Raised (RemoteFailure i), w')
    end.

Definition run (command : string) : Fab Z := run_with None command.

(** [with cd(path): body]: the scope is opened, the body runs, and the
    scope is closed again whether the body returns or raises. *)
Definition with_cd {A : Type} (path : string) (body : Fab A) : Fab A :=
  fun ch w =>
    let saved := cwd w in
    let '(r, w') := body ch (mkWorld (env w) (path :: saved) (issued w)) in
    (r, mkWorld (env w') saved (issued w')).

(** A process that has just loaded the fabfile. *)
Definition fresh (e : Env) : World := mkWorld e [] [].

(** A remote command failed: its call raised, or returned a return code
    other than zero. *)
Definition failed (o : Outcome) : bool :=
  match o with
  | Returns rc => negb (rc =? 0)%Z
  | Raises => true
  end.

(** The reference behaviour of handing a list of calls to the channel one
    after the other, with nothing between them: every call that returns is
    followed by the next, the first call that raises is the last. *)
Fixpoint issue_all (ch : Channel) (hist : list Issued) (calls : list Issued)
  : list Issued :=
  match calls with
  | [] => []
  | i :: rest =>
      i :: match ch hist i with
           | Returns _ => issue_all ch (hist ++ [i]) rest
           | Raises => []
           end
  end.

(** How that ends: normally when every call returned, with the exception of
    the first call that raised otherwise. *)
Fixpoint outcome_of (ch : Channel) (hist : list Issued) (calls : list Issued)
  : Result unit :=
  match calls with
  | [] => Normal tt
  | i :: rest =>
      match ch hist i with
      | Returns _ => outcome_of ch (hist ++ [i]) rest
      | Raises => Raised (RemoteFailure i)
      end
  end.

(** Some call of a recorded run failed. *)
Fixpoint any_failed (ch : Channel) (hist : list Issued) (trace : list Issued)
  : bool :=
  match trace with
  | [] => false
  | i :: rest => failed (ch hist i) || any_failed ch (hist ++ [i]) rest
  end.

(** A channel on which no call of [run] ever raises, whatever the return
    code (a recording mock, or the library told to warn only). *)
Definition never_raises (ch : Channel) : Prop :=
  forall hist i, exists rc, ch hist i = Returns rc.

End Fabric.

Declare Scope fab_scope.
Delimit Scope fab_scope with fab.
Notation "x <- m ;; k" := (Fabric.bind m (fun x => k))
  (at level 61, m at next level, right associativity) : fab_scope.
Notation "m ;; k" := (Fabric.seq m k)
  (at level 61, right associativity) : fab_scope.

(* ------------------------------------------------------------------ *)
(** ** The fabfile *)

Module Fabfile.
Import Fabric.
Local Open Scope fab_scope.

(** The module-level assignments, as a function of the two literals:
<<
  env.user = user_value
  env.tsuru_path = tsuru_path_value
  env.collector_path = '%s/collector' % env.tsuru_path
  env.webserverd_path = '%s/api/webserverd' % env.tsuru_path
>> *)
Definition configure (user_value tsuru_path_value : string)
  : (PyStr.fmt_error + Env)%type :=
  let env_user := user_value in
  let env_tsuru_path := tsuru_path_value in
  match PyStr.format "%s/collector" env_tsuru_path with
  | inl e => inl e
  | inr env_collector_path =>
      match PyStr.format "%s/api/webserverd" env_tsuru_path with
      | inl e => inl e
      | inr env_webserverd_path =>
          inr (mkEnv env_user env_tsuru_path
                     env_collector_path env_webserverd_path)
      end
  end.

(** The settings with the literals of the source. *)
Definition module_env : (PyStr.fmt_error + Env)%type :=
  configure "ubuntu" "/home/ubuntu/.go/src/github.com/timeredbull/tsuru".

Definition stop : Fab unit :=
  run "killall -9 webserverd" ;;
  run "killall -9 collector" ;;
  ret tt.

Definition update : Fab unit :=
  run "go get -u github.com/timeredbull/tsuru/collector" ;;
  run "go get -u github.com/timeredbull/tsuru/api/webserverd" ;;
  ret tt.

Definition build : Fab unit :=
  (e <- read_env ;;
   with_cd (collector_path e)
     (run "go build -o collector main.go")) ;;
  (e <- read_env ;;
   with_cd (webserverd_path e)
     (run "go build -o webserverd main.go")) ;;
  ret tt.

Definition start : Fab unit :=
  (e <- read_env ;;
   c <- format "nohup %s/collector >& /dev/null < /dev/null &"
               (collector_path e) ;;
   run_with (Some false) c) ;;
  (e <- read_env ;;
   c <- format "nohup %s/webserverd >& /dev/null < /dev/null &"
               (webserverd_path e) ;;
   run_with (Some false) c) ;;
  ret tt.

Definition deploy : Fab unit :=
  stop ;;
  update ;;
  build ;;
  start ;;
  ret tt.

End Fabfile.

(* ------------------------------------------------------------------ *)
(** ** The calls each task is expected to make *)

Module Contract.
Import Fabric.

(** The calls are given for settings [e] and for the [cd] scopes [s] that
    are open when the task is entered (none on a fresh process). *)
Definition Calls : Type := Env -> list string -> list Issued.

Definition stop_calls : Calls := fun e s =>
  [ mkIssued (user e) s "killall -9 webserverd" None;
    mkIssued (user e) s "killall -9 collector" None ].

Definition update_calls : Calls := fun e s =>
  [ mkIssued (user e) s
      "go get -u github.com/timeredbull/tsuru/collector" None;
    mkIssued (user e) s
      "go get -u github.com/timeredbull/tsuru/api/webserverd" None ].

Definition build_calls : Calls := fun e s =>
  [ mkIssued (user e) (collector_path e :: s)
      "go build -o collector main.go" None;
    mkIssued (user e) (webserverd_path e :: s)
      "go build -o webserverd main.go" None ].

Definition start_calls : Calls := fun e s =>
  [ mkIssued (user e) s
      ("nohup " ++ collector_path e
         ++ "/collector >& /dev/null < /dev/null &")%string
      (Some false);
    mkIssued (user e) s
      ("nohup " ++ webserverd_path e
         ++ "/webserverd >& /dev/null < /dev/null &")%string
      (Some false) ].

(** The command line that launches [binary] detached from the session:
    under [nohup], in the background, with standard output and standard
    error ([>&]) and standard input ([<]) redirected to [/dev/null]. *)
Definition detached_launch (binary : string) : string :=
  ("nohup " ++ binary ++ " >& /dev/null < /dev/null &")%string.

Definition no_calls : Calls := fun _ _ => [].

Definition then_calls (a b : Calls) : Calls := fun e s => a e s ++ b e s.

Definition deploy_calls : Calls :=
  then_calls stop_calls
    (then_calls update_calls (then_calls build_calls start_calls)).

(** A task behaves as a list of calls when, on every channel and from
    every world, it hands exactly those calls to the channel one after the
    other, stops at the first one that raises and lets that exception out,
    and leaves the settings and the open scopes as they were. *)
Definition behaves_as (t : Fab unit) (calls : Calls) : Prop :=
  forall ch w,
    t ch w =
    (outcome_of ch (issued w) (calls (env w) (cwd w)),
     mkWorld (env w) (cwd w)
             (issued w ++ issue_all ch (issued w) (calls (env w) (cwd w)))).

(** The calls a task makes on a fresh process. *)
Definition trace (t : Fab unit) (ch : Channel) (e : Env) : list Issued :=
  issued (snd (t ch (fresh e))).

(** The reading of the deploy task under which a failing step never keeps
    the later steps from running: whenever some call of a deploy run
    failed, all eight calls were made all the same. *)
Definition deploy_runs_on_after_failure : Prop :=
  forall ch e,
    any_failed ch [] (trace Fabfile.deploy ch e) = true ->
    trace Fabfile.deploy ch e = deploy_calls e [].

(** A recording collaborator: every call returns with return code 0. *)
Definition recording_mock : Channel := fun _ _ => Returns 0.

(** A remote host on which the webserver daemon is not running, reached
    through a library that turns a failed command into an exception:
    [killall] finds no process to kill and the call raises. *)
Definition no_webserverd_running : Channel := fun _ i =>
  if (command i =? "killall -9 webserverd")%string then Raises
  else Returns 0.

(** A host where the same happens but the library only warns: the call
    returns with [killall]'s return code 1. *)
Definition no_webserverd_warn_only : Channel := fun _ i =>
  if (command i =? "killall -9 webserverd")%string then Returns 1
  else Returns 0.

Definition sample_env : Env :=
  mkEnv "deployer" "/srv/tsuru" "/srv/tsuru/collector"
        "/srv/tsuru/api/webserverd".

(** The call raised. *)
Definition raises (o : Outcome) : bool :=
  match o with
  | Raises => true
  | Returns _ => false
  end.

(** Two remote sides that raise on the same calls; the return codes they
    give may differ. *)
Definition same_raising (ch1 ch2 : Channel) : Prop :=
  forall hist i, raises (ch1 hist i) = raises (ch2 hist i).

(** The two services, each with its source directory and the name of its
    binary, in the order in which [build] and [start] go through them. *)
Definition services (e : Env) : list (string * string) :=
  [ (collector_path e, "collector"); (webserverd_path e, "webserverd") ].

Definition kill_command (name : string) : string :=
  ("killall -9 " ++ name)%string.

Definition compile_command (output : string) : string :=
  ("go build -o " ++ output ++ " main.go")%string.

(** The calls of [deploy] that come before the launches. *)
Definition before_start_calls : Calls :=
  then_calls stop_calls (then_calls update_calls build_calls).

End Contract.

(* ------------------------------------------------------------------ *)
(** ** Proof steps for runs *)

(** Case analysis on the answer of the channel to the next call. *)
Ltac step_call ch :=
  match goal with
  | |- context [ch ?h ?i] => destruct (ch h i)
  end.

(** A task made of a fixed series of calls: unfold it, follow the channel
    call by call, and compare the records. *)
Ltac by_calls :=
  let ch := fresh "ch" in
  intros ch [[? ? ? ?] ? ?];
  cbv [Fabric.seq Fabric.bind Fabric.run Fabric.run_with Fabric.ret
       Fabric.read_env Fabric.with_cd Fabric.raise
       Contract.stop_calls Contract.update_calls Contract.build_calls
       Contract.start_calls
       Fabric.issue_all Fabric.outcome_of Fabric.env Fabric.cwd
       Fabric.issued Fabric.user
       Fabric.collector_path Fabric.webserverd_path];
  simpl;
  repeat (step_call ch; simpl);
  rewrite <- ?app_assoc; reflexivity.

(* ------------------------------------------------------------------ *)
(** ** Strings *)

Section StringFacts.

Lemma string_length_append (a b : string) :
  String.length (a ++ b)%string = String.length a + String.length b.
Proof.
  induction a as [|c a IH]; simpl; [reflexivity | now rewrite IH].
Qed.

Lemma string_append_assoc (a b c : string) :
  ((a ++ b) ++ c = a ++ (b ++ c))%string.
Proof.
  induction a as [|x a IH]; simpl; [reflexivity | now rewrite IH].
Qed.

(** Two strings that agree once the same suffix is appended are equal. *)
Lemma string_append_cancel_r (s a b : string) :
  (a ++ s = b ++ s)%string -> a = b.
Proof.
  revert b; induction a as [|x a IH]; intros [|y b] H; simpl in H.
  - reflexivity.
  - apply (f_equal String.length) in H; simpl in H.
    rewrite string_length_append in H; lia.
  - apply (f_equal String.length) in H; simpl in H.
    rewrite string_length_append in H; lia.
  - injection H as Hxy Hab. subst y. f_equal. now apply IH.
Qed.

End StringFacts.

(* ------------------------------------------------------------------ *)
(** ** Formatting *)

Section FormatFacts.
Import PyStr.

Lemma format_from_plain (s : string) :
  plain s = true -> format_from s None = inr s.
Proof.
  induction s as [|c s IH]; simpl; [reflexivity|].
  intros H. apply andb_prop in H as [Hc Hs].
  apply negb_true_iff in Hc.
  specialize (IH Hs).
  destruct c as [[] [] [] [] [] [] [] []]; try discriminate Hc;
    simpl; rewrite IH; reflexivity.
Qed.

(** A format with one [%s] and no other percent sign puts the argument in
    its place. *)
Lemma format_one_hole (pre post arg : string) :
  plain pre = true -> plain post = true ->
  format (pre ++ "%s" ++ post) arg = inr (pre ++ arg ++ post)%string.
Proof.
  intros Hpre Hpost. unfold format.
  induction pre as [|c pre IH].
  - simpl. rewrite (format_from_plain _ Hpost). reflexivity.
  - simpl in Hpre. apply andb_prop in Hpre as [Hc Hpre].
    apply negb_true_iff in Hc. specialize (IH Hpre).
    destruct c as [[] [] [] [] [] [] [] []]; try discriminate Hc;
      simpl in *; rewrite IH; reflexivity.
Qed.

End FormatFacts.

(* ------------------------------------------------------------------ *)
(** ** Lists of calls *)

Section CallLists.
Import Fabric.
Variable ch : Channel.

Lemma outcome_of_app (a b hist : list Issued) :
  outcome_of ch hist (a ++ b) =
  match outcome_of ch hist a with
  | Normal _ => outcome_of ch (hist ++ a) b
  | Raised e => Raised e
  end.
Proof.
  revert hist; induction a as [|i a IH]; intros hist; simpl.
  - now rewrite app_nil_r.
  - destruct (ch hist i); [|reflexivity].
    rewrite IH, <- app_assoc. reflexivity.
Qed.

Lemma issue_all_app (a b hist : list Issued) :
  issue_all ch hist (a ++ b) =
  issue_all ch hist a ++
  match outcome_of ch hist a with
  | Normal _ => issue_all ch (hist ++ a) b
  | Raised _ => []
  end.
Proof.
  revert hist; induction a as [|i a IH]; intros hist; simpl.
  - now rewrite app_nil_r.
  - destruct (ch hist i); [|reflexivity].
    rewrite IH, <- app_assoc. reflexivity.
Qed.

(** When nothing raised, every call was made. *)
Lemma issue_all_normal (a hist : list Issued) (u : unit) :
  outcome_of ch hist a = Normal u -> issue_all ch hist a = a.
Proof.
  revert hist; induction a as [|i a IH]; intros hist; simpl;
    [reflexivity|].
  destruct (ch hist i); [|discriminate].
  intros H. now rewrite (IH _ H).
Qed.

Lemma outcome_of_never_raises (a hist : list Issued) :
  never_raises ch -> outcome_of ch hist a = Normal tt.
Proof.
  intros Hch. revert hist; induction a as [|i a IH]; intros hist; simpl;
    [reflexivity|].
  destruct (Hch hist i) as [rc ->]. apply IH.
Qed.

Lemma issue_all_never_raises (a hist : list Issued) :
  never_raises ch -> issue_all ch hist a = a.
Proof.
  intros Hch. apply (issue_all_normal a hist tt).
  now apply outcome_of_never_raises.
Qed.

End CallLists.

(* ------------------------------------------------------------------ *)
(** ** Each task behaves as its list of calls *)

Section Behaviour.
Import Fabric Contract.
Local Open Scope fab_scope.

Lemma behaves_as_ret : behaves_as (ret tt) no_calls.
Proof.
  intros ch [e s h]; unfold ret, no_calls; simpl.
  now rewrite app_nil_r.
Qed.

(** Sequencing two tasks appends their calls. *)
Lemma behaves_as_seq (a b : Fab unit) (ca cb : Calls) :
  behaves_as a ca -> behaves_as b cb ->
  behaves_as (a ;; b) (then_calls ca cb).
Proof.
  intros Ha Hb ch w. unfold seq, bind, then_calls.
  rewrite Ha, outcome_of_app, issue_all_app.
  destruct (outcome_of ch (issued w) (ca (env w) (cwd w))) as [[]|x] eqn:E.
  - rewrite Hb; simpl.
    rewrite (issue_all_normal ch _ _ _ E), app_assoc. reflexivity.
  - now rewrite app_nil_r.
Qed.

Lemma behaves_as_ext (t : Fab unit) (c c' : Calls) :
  (forall e s, c e s = c' e s) -> behaves_as t c -> behaves_as t c'.
Proof.
  intros Hc Ht ch w. rewrite Ht, Hc. reflexivity.
Qed.

Lemma stop_behaves : behaves_as Fabfile.stop stop_calls.
Proof. unfold Fabfile.stop. by_calls. Qed.

Lemma update_behaves : behaves_as Fabfile.update update_calls.
Proof. unfold Fabfile.update. by_calls. Qed.

Lemma build_behaves : behaves_as Fabfile.build build_calls.
Proof. unfold Fabfile.build. by_calls. Qed.

Lemma start_behaves : behaves_as Fabfile.start start_calls.
Proof. unfold Fabfile.start, Fabric.format. simpl. by_calls. Qed.

Lemma deploy_behaves : behaves_as Fabfile.deploy deploy_calls.
Proof.
  unfold Fabfile.deploy, deploy_calls.
  repeat apply behaves_as_seq;
    auto using stop_behaves, update_behaves, build_behaves.
  apply (behaves_as_ext _ (then_calls start_calls no_calls)).
  - intros e s. unfold then_calls, no_calls. apply app_nil_r.
  - apply behaves_as_seq; [apply start_behaves | apply behaves_as_ret].
Qed.

End Behaviour.

(* ------------------------------------------------------------------ *)
(** ** Runs on a fresh process *)

Section FreshRuns.
Import Fabric Contract.

Lemma run_of_behaves (t : Fab unit) (c : Calls) (ch : Channel) (e : Env) :
  behaves_as t c ->
  t ch (fresh e) =
  (outcome_of ch [] (c e []), mkWorld e [] (issue_all ch [] (c e []))).
Proof. intros H. rewrite H. reflexivity. Qed.

Lemma trace_of_behaves (t : Fab unit) (c : Calls) (ch : Channel) (e : Env) :
  behaves_as t c -> trace t ch e = issue_all ch [] (c e []).
Proof. intros H. unfold trace. now rewrite (run_of_behaves t c ch e H). Qed.

Lemma complete_run (t : Fab unit) (c : Calls) (ch : Channel) (e : Env) :
  behaves_as t c -> never_raises ch ->
  t ch (fresh e) = (Normal tt, mkWorld e [] (c e [])).
Proof.
  intros H Hch. rewrite (run_of_behaves t c ch e H).
  now rewrite outcome_of_never_raises, issue_all_never_raises.
Qed.

Lemma complete_trace (t : Fab unit) (c : Calls) (ch : Channel) (e : Env) :
  behaves_as t c -> never_raises ch -> trace t ch e = c e [].
Proof. intros H Hch. unfold trace. now rewrite (complete_run t c ch e H Hch). Qed.

Lemma env_kept (t : Fab unit) (c : Calls) (ch : Channel) (w : World) :
  behaves_as t c -> env (snd (t ch w)) = env w.
Proof. intros H. rewrite H. reflexivity. Qed.

Lemma configure_inv (u r : string) (e : Env) :
  Fabfile.configure u r = inr e ->
  e = mkEnv u r (r ++ "/collector")%string (r ++ "/api/webserverd")%string.
Proof.
  unfold Fabfile.configure, PyStr.format. simpl.
  intros H. injection H as <-. reflexivity.
Qed.

End FreshRuns.

(* ------------------------------------------------------------------ *)
(** ** The properties of the specification *)

Section Claims.
Import Fabric Contract Fabfile.

(** C3.  For every user name and root path the module-level code is given,
    it succeeds, and the collector path it derives is the root path
    followed by [/collector], the webserver-daemon path the root path
    followed by [/api/webserverd]. *)
Theorem configure_derives_paths (u r : string) :
  configure u r =
  inr (mkEnv u r (r ++ "/collector")%string (r ++ "/api/webserverd")%string).
Proof.
  assert (Hc : PyStr.format "%s/collector" r
               = inr (r ++ "/collector")%string)
    by exact (format_one_hole "" "/collector" r eq_refl eq_refl).
  assert (Hw : PyStr.format "%s/api/webserverd" r
               = inr (r ++ "/api/webserverd")%string)
    by exact (format_one_hole "" "/api/webserverd" r eq_refl eq_refl).
  unfold configure. cbv zeta. rewrite Hc, Hw. reflexivity.
Qed.

(** C4.  When no call raises, [stop] returns after exactly two calls, both
    of them [killall -9] commands outside any directory scope: one for
    [webserverd] and one for [collector], whichever comes first. *)
Theorem stop_issues_two_kills (ch : Channel) (e : Env) :
  never_raises ch ->
  fst (stop ch (fresh e)) = Normal tt /\
  List.length (trace stop ch e) = 2 /\
  Permutation (trace stop ch e)
    [ mkIssued (user e) [] "killall -9 collector" None;
      mkIssued (user e) [] "killall -9 webserverd" None ].
Proof.
  intros Hch.
  unfold trace. rewrite (complete_run _ _ ch e stop_behaves Hch). simpl.
  repeat split. apply perm_swap.
Qed.

Lemma stop_issues_two_kills_witness :
  never_raises recording_mock /\
  fst (stop recording_mock (fresh sample_env)) = Normal tt /\
  List.length (trace stop recording_mock sample_env) = 2 /\
  Permutation (trace stop recording_mock sample_env)
    [ mkIssued "deployer" [] "killall -9 collector" None;
      mkIssued "deployer" [] "killall -9 webserverd" None ].
Proof.
  split.
  - intros hist i. exists 0%Z. reflexivity.
  - apply (stop_issues_two_kills recording_mock sample_env).
    intros hist i. exists 0%Z. reflexivity.
Defined.

(** C5.  When no call raises, [update] returns after exactly two calls: a
    [go get -u] of the collector's module path, then a [go get -u] of the
    webserver daemon's module path. *)
Theorem update_issues_two_fetches (ch : Channel) (e : Env) :
  never_raises ch ->
  fst (update ch (fresh e)) = Normal tt /\
  trace update ch e =
    [ mkIssued (user e) []
        "go get -u github.com/timeredbull/tsuru/collector" None;
      mkIssued (user e) []
        "go get -u github.com/timeredbull/tsuru/api/webserverd" None ].
Proof.
  intros Hch.
  unfold trace. rewrite (complete_run _ _ ch e update_behaves Hch).
  split; reflexivity.
Qed.

Lemma update_issues_two_fetches_witness :
  never_raises recording_mock /\
  fst (update recording_mock (fresh sample_env)) = Normal tt /\
  trace update recording_mock sample_env =
    [ mkIssued "deployer" []
        "go get -u github.com/timeredbull/tsuru/collector" None;
      mkIssued "deployer" []
        "go get -u github.com/timeredbull/tsuru/api/webserverd" None ].
Proof.
  split.
  - intros hist i. exists 0%Z. reflexivity.
  - apply (update_issues_two_fetches recording_mock sample_env).
    intros hist i. exists 0%Z. reflexivity.
Defined.

(** C6.  When no call raises, [build] returns after exactly two calls: a
    [go build] with output [collector] inside the configured collector
    directory, then a [go build] with output [webserverd] inside the
    configured webserver-daemon directory; both scopes are closed again
    when it returns. *)
Theorem build_issues_two_compiles (ch : Channel) (e : Env) :
  never_raises ch ->
  fst (build ch (fresh e)) = Normal tt /\
  trace build ch e =
    [ mkIssued (user e) [collector_path e]
        "go build -o collector main.go" None;
      mkIssued (user e) [webserverd_path e]
        "go build -o webserverd main.go" None ] /\
  cwd (snd (build ch (fresh e))) = [].
Proof.
  intros Hch.
  unfold trace. rewrite (complete_run _ _ ch e build_behaves Hch).
  repeat split.
Qed.

Lemma build_issues_two_compiles_witness :
  never_raises recording_mock /\
  fst (build recording_mock (fresh sample_env)) = Normal tt /\
  trace build recording_mock sample_env =
    [ mkIssued "deployer" ["/srv/tsuru/collector"]
        "go build -o collector main.go" None;
      mkIssued "deployer" ["/srv/tsuru/api/webserverd"]
        "go build -o webserverd main.go" None ] /\
  cwd (snd (build recording_mock (fresh sample_env))) = [].
Proof.
  split.
  - intros hist i. exists 0%Z. reflexivity.
  - apply (build_issues_two_compiles recording_mock sample_env).
    intros hist i. exists 0%Z. reflexivity.
Defined.

(** C7.  When no call raises, [start] returns after exactly two calls, each
    passed [pty=False] and each a detached launch (standard input, output
    and error on [/dev/null]): first of the binary [collector] in the
    configured collector directory, then of the binary [webserverd] in the
    configured webserver-daemon directory. *)
Theorem start_issues_two_launches (ch : Channel) (e : Env) :
  never_raises ch ->
  fst (start ch (fresh e)) = Normal tt /\
  trace start ch e =
    [ mkIssued (user e) []
        (detached_launch (collector_path e ++ "/collector")) (Some false);
      mkIssued (user e) []
        (detached_launch (webserverd_path e ++ "/webserverd")) (Some false) ].
Proof.
  intros Hch.
  unfold trace. rewrite (complete_run _ _ ch e start_behaves Hch).
  split; [reflexivity|].
  unfold detached_launch. rewrite !string_append_assoc. reflexivity.
Qed.

Lemma start_issues_two_launches_witness :
  never_raises recording_mock /\
  fst (start recording_mock (fresh sample_env)) = Normal tt /\
  trace start recording_mock sample_env =
    [ mkIssued "deployer" []
        "nohup /srv/tsuru/collector/collector >& /dev/null < /dev/null &"
        (Some false);
      mkIssued "deployer" []
        "nohup /srv/tsuru/api/webserverd/webserverd >& /dev/null < /dev/null &"
        (Some false) ].
Proof.
  split.
  - intros hist i. exists 0%Z. reflexivity.
  - apply (start_issues_two_launches recording_mock sample_env).
    intros hist i. exists 0%Z. reflexivity.
Defined.

(** C9.  On every channel [stop] first makes the call that kills
    [webserverd]; the call that kills [collector] comes second, and is made
    exactly when the first call returned. *)
Theorem stop_kills_webserverd_first (ch : Channel) (e : Env) :
  trace stop ch e =
  mkIssued (user e) [] "killall -9 webserverd" None ::
  match ch [] (mkIssued (user e) [] "killall -9 webserverd" None) with
  | Returns _ => [ mkIssued (user e) [] "killall -9 collector" None ]
  | Raises => []
  end.
Proof.
  rewrite (trace_of_behaves _ _ ch e stop_behaves). simpl.
  destruct (ch [] _); [|reflexivity].
  destruct (ch _ _); reflexivity.
Qed.

(** C1.  When no call raises, [deploy] returns after exactly eight calls:
    the two kills, the two fetches, the two compiles (each inside the
    directory of its service), the two detached launches; that is, the
    calls of [stop], of [update], of [build] and of [start], in this
    order. *)
Theorem deploy_issues_eight_calls (ch : Channel) (e : Env) :
  never_raises ch ->
  fst (deploy ch (fresh e)) = Normal tt /\
  trace deploy ch e =
    [ mkIssued (user e) [] "killall -9 webserverd" None;
      mkIssued (user e) [] "killall -9 collector" None;
      mkIssued (user e) []
        "go get -u github.com/timeredbull/tsuru/collector" None;
      mkIssued (user e) []
        "go get -u github.com/timeredbull/tsuru/api/webserverd" None;
      mkIssued (user e) [collector_path e]
        "go build -o collector main.go" None;
      mkIssued (user e) [webserverd_path e]
        "go build -o webserverd main.go" None;
      mkIssued (user e) []
        (detached_launch (collector_path e ++ "/collector")) (Some false);
      mkIssued (user e) []
        (detached_launch (webserverd_path e ++ "/webserverd")) (Some false) ]
  /\
  trace deploy ch e =
    trace stop ch e ++ trace update ch e ++ trace build ch e
      ++ trace start ch e.
Proof.
  intros Hch.
  rewrite (complete_trace _ _ ch e stop_behaves Hch),
          (complete_trace _ _ ch e update_behaves Hch),
          (complete_trace _ _ ch e build_behaves Hch),
          (complete_trace _ _ ch e start_behaves Hch),
          (complete_trace _ _ ch e deploy_behaves Hch),
          (complete_run _ _ ch e deploy_behaves Hch).
  repeat split.
  unfold detached_launch. rewrite !string_append_assoc. reflexivity.
Qed.

Lemma deploy_issues_eight_calls_witness :
  never_raises recording_mock /\
  fst (deploy recording_mock (fresh sample_env)) = Normal tt /\
  trace deploy recording_mock sample_env =
    [ mkIssued "deployer" [] "killall -9 webserverd" None;
      mkIssued "deployer" [] "killall -9 collector" None;
      mkIssued "deployer" []
        "go get -u github.com/timeredbull/tsuru/collector" None;
      mkIssued "deployer" []
        "go get -u github.com/timeredbull/tsuru/api/webserverd" None;
      mkIssued "deployer" ["/srv/tsuru/collector"]
        "go build -o collector main.go" None;
      mkIssued "deployer" ["/srv/tsuru/api/webserverd"]
        "go build -o webserverd main.go" None;
      mkIssued "deployer" []
        "nohup /srv/tsuru/collector/collector >& /dev/null < /dev/null &"
        (Some false);
      mkIssued "deployer" []
        "nohup /srv/tsuru/api/webserverd/webserverd >& /dev/null < /dev/null &"
        (Some false) ]
  /\
  trace deploy recording_mock sample_env =
    trace stop recording_mock sample_env
      ++ trace update recording_mock sample_env
      ++ trace build recording_mock sample_env
      ++ trace start recording_mock sample_env.
Proof.
  split.
  - intros hist i. exists 0%Z. reflexivity.
  - apply (deploy_issues_eight_calls recording_mock sample_env).
    intros hist i. exists 0%Z. reflexivity.
Defined.

(** C2, as stated, fails.  On a host where [webserverd] is not running and
    the failed [killall] makes the call raise, the run of [deploy] has a
    failing call and ends right there: one call made, not eight. *)
Lemma deploy_stops_at_raising_kill :
  any_failed no_webserverd_running []
    (trace deploy no_webserverd_running sample_env) = true /\
  trace deploy no_webserverd_running sample_env =
    [ mkIssued "deployer" [] "killall -9 webserverd" None ] /\
  ~ deploy_runs_on_after_failure.
Proof.
  split; [reflexivity|]. split; [reflexivity|].
  intros H.
  assert (F : any_failed no_webserverd_running []
                (trace deploy no_webserverd_running sample_env) = true)
    by reflexivity.
  apply H in F. vm_compute in F. discriminate F.
Qed.

(** C2, amended.  [deploy] neither catches nor inspects anything: on every
    channel its run is the eight calls handed over one after the other,
    where a call that returns is followed by the next one whatever its
    return code, and the first call that raises is the last one made and
    its exception is the outcome of [deploy]. *)
Theorem deploy_lets_first_exception_out (ch : Channel) (e : Env) :
  deploy ch (fresh e) =
  (outcome_of ch [] (deploy_calls e []),
   mkWorld e [] (issue_all ch [] (deploy_calls e []))).
Proof. exact (run_of_behaves _ _ ch e deploy_behaves). Qed.

(** C8.  The settings are built from the literals of the module, and no
    task changes them: after [stop], [update], [build], [start] or
    [deploy], on any channel and from any world, returning or raising, the
    settings are the ones the task was entered with. *)
Theorem settings_never_mutated :
  module_env =
    inr (mkEnv "ubuntu"
           "/home/ubuntu/.go/src/github.com/timeredbull/tsuru"
           "/home/ubuntu/.go/src/github.com/timeredbull/tsuru/collector"
           "/home/ubuntu/.go/src/github.com/timeredbull/tsuru/api/webserverd")
  /\
  forall (ch : Channel) (w : World),
    env (snd (stop ch w)) = env w /\
    env (snd (update ch w)) = env w /\
    env (snd (build ch w)) = env w /\
    env (snd (start ch w)) = env w /\
    env (snd (deploy ch w)) = env w.
Proof.
  split; [reflexivity|].
  intros ch w.
  repeat split;
    eauto using env_kept, stop_behaves, update_behaves, build_behaves,
                start_behaves, deploy_behaves.
Qed.

(** C10.  The command lines of [update] are two literals, whatever the
    settings: on any channel and for any settings, the command lines it
    issues are the first one or two of them.  For two configurations with
    the same user and different root paths, [update] makes the very same
    calls, while the calls of [build] differ (in their directory scope) and
    the calls of [start] differ (in their command line). *)
Theorem update_ignores_root_path
  (ch : Channel) (u r1 r2 : string) (e1 e2 : Env) :
  configure u r1 = inr e1 ->
  configure u r2 = inr e2 ->
  r1 <> r2 ->
  (forall (ch' : Channel) (e : Env),
     map command (trace update ch' e) =
     firstn (List.length (trace update ch' e))
       [ "go get -u github.com/timeredbull/tsuru/collector";
         "go get -u github.com/timeredbull/tsuru/api/webserverd" ]) /\
  trace update ch e1 = trace update ch e2 /\
  trace build ch e1 <> trace build ch e2 /\
  trace start ch e1 <> trace start ch e2.
Proof.
  intros H1 H2 Hr.
  apply configure_inv in H1, H2. subst e1 e2.
  split; [|split; [|split]].
  - intros ch' e. rewrite (trace_of_behaves _ _ ch' e update_behaves).
    simpl. destruct (ch' [] _); [|reflexivity].
    simpl. destruct (ch' _ _); reflexivity.
  - rewrite !(trace_of_behaves _ _ ch _ update_behaves). reflexivity.
  - rewrite !(trace_of_behaves _ _ ch _ build_behaves). simpl.
    intros H. injection H as H _. apply Hr.
    now apply (string_append_cancel_r "/collector").
  - rewrite !(trace_of_behaves _ _ ch _ start_behaves). simpl.
    intros H. injection H as H _. apply Hr.
    apply (string_append_cancel_r "/collector").
    now apply (string_append_cancel_r
                 "/collector >& /dev/null < /dev/null &").
Qed.

Lemma update_ignores_root_path_witness :
  let ea :=
    mkEnv "ubuntu" "/opt/a" "/opt/a/collector" "/opt/a/api/webserverd" in
  let eb :=
    mkEnv "ubuntu" "/opt/b" "/opt/b/collector" "/opt/b/api/webserverd" in
  configure "ubuntu" "/opt/a" = inr ea /\
  configure "ubuntu" "/opt/b" = inr eb /\
  "/opt/a" <> "/opt/b" /\
  (forall (ch' : Channel) (e : Env),
     map command (trace update ch' e) =
     firstn (List.length (trace update ch' e))
       [ "go get -u github.com/timeredbull/tsuru/collector";
         "go get -u github.com/timeredbull/tsuru/api/webserverd" ]) /\
  trace update recording_mock ea = trace update recording_mock eb /\
  trace build recording_mock ea <> trace build recording_mock eb /\
  trace start recording_mock ea <> trace start recording_mock eb.
Proof.
  intros ea eb.
  split; [reflexivity|]. split; [reflexivity|]. split; [discriminate|].
  apply (update_ignores_root_path recording_mock "ubuntu" "/opt/a" "/opt/b"
           ea eb eq_refl eq_refl).
  discriminate.
Defined.

End Claims.


(* ------------------------------------------------------------------ *)
(** ** More on lists of calls *)

Section CallListsMore.
Import Fabric Contract.

(** Only calls of the list are made. *)
Lemma issue_all_incl (ch : Channel) (c hist : list Issued) (i : Issued) :
  In i (issue_all ch hist c) -> In i c.
Proof.
  revert hist; induction c as [|j c IH]; intros hist; simpl; [tauto|].
  intros [H|H]; [now left|].
  destruct (ch hist j); [right; eapply IH; eassumption | destruct H].
Qed.

(** The calls made are the first few of the list, in order. *)
Lemma issue_all_firstn (ch : Channel) (c hist : list Issued) :
  issue_all ch hist c = firstn (List.length (issue_all ch hist c)) c.
Proof.
  revert hist; induction c as [|i c IH]; intros hist; simpl;
    [reflexivity|].
  f_equal. destruct (ch hist i); [apply IH | reflexivity].
Qed.

Lemma issue_all_length (ch : Channel) (c hist : list Issued) :
  List.length (issue_all ch hist c) <= List.length c /\
  (c <> [] -> 1 <= List.length (issue_all ch hist c)).
Proof.
  revert hist; induction c as [|i c IH]; intros hist; simpl.
  - split; [lia | congruence].
  - split; [|lia].
    destruct (ch hist i); simpl; [|lia].
    destruct (IH (hist ++ [i])) as [H _]. lia.
Qed.

(** A run that raised stopped at a call of the list, which is the last
    call made and the one the exception names. *)
Lemma outcome_raised_last (ch : Channel) (c hist : list Issued) (x : Exn) :
  outcome_of ch hist c = Raised x ->
  exists pre i,
    x = RemoteFailure i /\
    issue_all ch hist c = pre ++ [i] /\
    ch (hist ++ pre) i = Raises /\
    In i c.
Proof.
  revert hist; induction c as [|j c IH]; intros hist; simpl;
    [discriminate|].
  destruct (ch hist j) eqn:E.
  - intros H. destruct (IH _ H) as (pre & i & Hx & Hi & Hr & Hin).
    exists (j :: pre), i. rewrite Hi. rewrite <- app_assoc in Hr.
    repeat split; auto.
  - intros H. injection H as <-. exists [], j.
    rewrite app_nil_r. repeat split; auto.
Qed.

(** Remote sides that raise on the same calls are told the same calls and
    end the same way. *)
Lemma same_raising_runs (ch1 ch2 : Channel) (c hist : list Issued) :
  same_raising ch1 ch2 ->
  issue_all ch1 hist c = issue_all ch2 hist c /\
  outcome_of ch1 hist c = outcome_of ch2 hist c.
Proof.
  intros Hs. revert hist; induction c as [|i c IH]; intros hist; simpl;
    [split; reflexivity|].
  specialize (Hs hist i).
  destruct (ch1 hist i), (ch2 hist i); simpl in Hs; try discriminate Hs.
  - destruct (IH (hist ++ [i])) as [-> ->]. split; reflexivity.
  - split; reflexivity.
Qed.

Lemma same_raising_task (t : Fab unit) (c : Calls) (ch1 ch2 : Channel)
      (w : World) :
  behaves_as t c -> same_raising ch1 ch2 -> t ch1 w = t ch2 w.
Proof.
  intros Ht Hs. rewrite !Ht.
  destruct (same_raising_runs ch1 ch2 (c (env w) (cwd w)) (issued w) Hs)
    as [-> ->].
  reflexivity.
Qed.

End CallListsMore.

(* ------------------------------------------------------------------ *)
(** ** Further properties of the tasks *)

Section Further.
Import Fabric Contract Fabfile.

Lemma task_appends_prefix (t : Fab unit) (c : Calls) (k : nat)
      (ch : Channel) (w : World) :
  behaves_as t c ->
  (forall e s, List.length (c e s) = k) -> 1 <= k ->
  exists n, 1 <= n <= k /\
    issued (snd (t ch w)) = issued w ++ firstn n (c (env w) (cwd w)).
Proof.
  intros Ht Hk Hpos. rewrite Ht. simpl.
  exists (List.length (issue_all ch (issued w) (c (env w) (cwd w)))).
  destruct (issue_all_length ch (c (env w) (cwd w)) (issued w)) as [Hle Hge].
  rewrite Hk in Hle. split.
  - split; [|exact Hle]. apply Hge. intros E.
    specialize (Hk (env w) (cwd w)). rewrite E in Hk. simpl in Hk. lia.
  - f_equal. apply issue_all_firstn.
Qed.

(** On every channel and from every world, a task only adds to the record
    of calls, and what it adds is a first part of its own list of calls, in
    order: at least one call, at most two ([stop], [update], [build],
    [start]) or eight ([deploy]). *)
Theorem tasks_append_a_prefix (ch : Channel) (w : World) :
  (exists n, 1 <= n <= 2 /\
     issued (snd (stop ch w)) =
     issued w ++ firstn n (stop_calls (env w) (cwd w))) /\
  (exists n, 1 <= n <= 2 /\
     issued (snd (update ch w)) =
     issued w ++ firstn n (update_calls (env w) (cwd w))) /\
  (exists n, 1 <= n <= 2 /\
     issued (snd (build ch w)) =
     issued w ++ firstn n (build_calls (env w) (cwd w))) /\
  (exists n, 1 <= n <= 2 /\
     issued (snd (start ch w)) =
     issued w ++ firstn n (start_calls (env w) (cwd w))) /\
  (exists n, 1 <= n <= 8 /\
     issued (snd (deploy ch w)) =
     issued w ++ firstn n (deploy_calls (env w) (cwd w))).
Proof.
  repeat split.
  - apply (task_appends_prefix _ _ 2 ch w stop_behaves); [reflexivity|lia].
  - apply (task_appends_prefix _ _ 2 ch w update_behaves); [reflexivity|lia].
  - apply (task_appends_prefix _ _ 2 ch w build_behaves); [reflexivity|lia].
  - apply (task_appends_prefix _ _ 2 ch w start_behaves); [reflexivity|lia].
  - apply (task_appends_prefix _ _ 8 ch w deploy_behaves); [reflexivity|lia].
Qed.

(** Whether its compile calls return or raise, and inside whatever scopes
    it is entered, [build] leaves the open scopes as it found them, and
    each call it makes runs in one service directory opened inside those
    scopes. *)
Theorem build_restores_scope (ch : Channel) (w : World) :
  cwd (snd (build ch w)) = cwd w /\
  exists made,
    issued (snd (build ch w)) = issued w ++ made /\
    Forall (fun i => scope i = collector_path (env w) :: cwd w \/
                     scope i = webserverd_path (env w) :: cwd w) made.
Proof.
  rewrite (build_behaves ch w). cbn [snd cwd issued].
  split; [reflexivity|].
  eexists. split; [reflexivity|].
  apply Forall_forall. intros i Hi. apply issue_all_incl in Hi.
  simpl in Hi. destruct Hi as [<-|[<-|[]]]; simpl; auto.
Qed.

(** No task looks at a return code: against two remote sides that raise
    on the same calls, however their return codes differ, each task makes
    the same calls and ends the same way. *)
Theorem return_codes_ignored (ch1 ch2 : Channel) (w : World) :
  same_raising ch1 ch2 ->
  stop ch1 w = stop ch2 w /\
  update ch1 w = update ch2 w /\
  build ch1 w = build ch2 w /\
  start ch1 w = start ch2 w /\
  deploy ch1 w = deploy ch2 w.
Proof.
  intros Hs.
  repeat split;
    eauto using same_raising_task, stop_behaves, update_behaves,
                build_behaves, start_behaves, deploy_behaves.
Qed.

Lemma return_codes_ignored_witness :
  same_raising recording_mock no_webserverd_warn_only /\
  stop recording_mock (fresh sample_env)
    = stop no_webserverd_warn_only (fresh sample_env) /\
  update recording_mock (fresh sample_env)
    = update no_webserverd_warn_only (fresh sample_env) /\
  build recording_mock (fresh sample_env)
    = build no_webserverd_warn_only (fresh sample_env) /\
  start recording_mock (fresh sample_env)
    = start no_webserverd_warn_only (fresh sample_env) /\
  deploy recording_mock (fresh sample_env)
    = deploy no_webserverd_warn_only (fresh sample_env).
Proof.
  assert (H : same_raising recording_mock no_webserverd_warn_only).
  { intros hist i. unfold recording_mock, no_webserverd_warn_only.
    destruct (command i =? "killall -9 webserverd")%string; reflexivity. }
  split; [exact H|].
  apply (return_codes_ignored recording_mock no_webserverd_warn_only
           (fresh sample_env) H).
Defined.

(** [deploy] launches nothing unless everything before has returned: if a
    run of [deploy] contains a launch (a call with [pty=False]), then the
    two kills, the two fetches and the two compiles were all made, in this
    order, and all six returned. *)
Theorem launch_only_after_build (ch : Channel) (e : Env) (i : Issued) :
  In i (trace deploy ch e) ->
  pty i = Some false ->
  outcome_of ch [] (before_start_calls e []) = Normal tt /\
  firstn 6 (trace deploy ch e) = before_start_calls e [].
Proof.
  rewrite (trace_of_behaves _ _ ch e deploy_behaves).
  change (deploy_calls e [])
    with (before_start_calls e [] ++ start_calls e []).
  rewrite issue_all_app.
  destruct (outcome_of ch [] (before_start_calls e [])) as [[]|x] eqn:E.
  - intros _ _. split; [reflexivity|].
    rewrite (issue_all_normal ch _ _ _ E).
    reflexivity.
  - rewrite app_nil_r. intros Hi Hp. apply issue_all_incl in Hi.
    simpl in Hi.
    destruct Hi as [<-|[<-|[<-|[<-|[<-|[<-|[]]]]]]]; discriminate Hp.
Qed.

Lemma launch_only_after_build_witness :
  let i := mkIssued "deployer" []
             "nohup /srv/tsuru/collector/collector >& /dev/null < /dev/null &"
             (Some false) in
  In i (trace deploy recording_mock sample_env) /\
  pty i = Some false /\
  outcome_of recording_mock [] (before_start_calls sample_env []) = Normal tt /\
  firstn 6 (trace deploy recording_mock sample_env)
    = before_start_calls sample_env [].
Proof.
  intros i.
  assert (Hin : In i (trace deploy recording_mock sample_env)).
  { vm_compute. do 6 right. left. reflexivity. }
  split; [exact Hin|]. split; [reflexivity|].
  apply (launch_only_after_build recording_mock sample_env i Hin).
  reflexivity.
Defined.

(** When [deploy] raises, the exception is the failure of a remote command
    (never a formatting error): it names one of the eight calls, that call
    is the last one recorded, and it is the call on which the remote side
    raised. *)
Theorem deploy_raises_last_call (ch : Channel) (w : World) (x : Exn) :
  fst (deploy ch w) = Raised x ->
  exists pre i,
    x = RemoteFailure i /\
    issued (snd (deploy ch w)) = (issued w ++ pre) ++ [i] /\
    ch (issued w ++ pre) i = Raises /\
    In i (deploy_calls (env w) (cwd w)).
Proof.
  rewrite (deploy_behaves ch w). cbn [fst snd issued]. intros H.
  destruct (outcome_raised_last ch _ _ _ H) as (pre & i & Hx & Hi & Hr & Hin).
  exists pre, i. rewrite Hi, app_assoc. auto.
Qed.

Lemma deploy_raises_last_call_witness :
  let k := mkIssued "deployer" [] "killall -9 webserverd" None in
  fst (deploy no_webserverd_running (fresh sample_env))
    = Raised (RemoteFailure k) /\
  exists pre i,
    RemoteFailure k = RemoteFailure i /\
    issued (snd (deploy no_webserverd_running (fresh sample_env)))
      = (issued (fresh sample_env) ++ pre) ++ [i] /\
    no_webserverd_running (issued (fresh sample_env) ++ pre) i = Raises /\
    In i (deploy_calls (env (fresh sample_env)) (cwd (fresh sample_env))).
Proof.
  intros k. split; [reflexivity|].
  apply (deploy_raises_last_call no_webserverd_running (fresh sample_env)
           (RemoteFailure k)).
  reflexivity.
Defined.

(** Whatever the root path, the module-level code gives the two services
    different directories, and each of them differs from the root. *)
Theorem service_directories_differ (u r : string) :
  exists e,
    configure u r = inr e /\
    collector_path e <> webserverd_path e /\
    collector_path e <> tsuru_path e /\
    webserverd_path e <> tsuru_path e.
Proof.
  eexists. split; [reflexivity|]. simpl.
  repeat split; intros H; apply (f_equal String.length) in H;
    rewrite !string_length_append in H; simpl in H; lia.
Qed.

(** The three tasks that name the services agree on them.  When no call
    raises, [build] compiles, in each service directory, the binary that
    [start] then launches from that very directory, and [stop] kills the
    processes by the names of these binaries, going through the services
    in the opposite order. *)
Theorem tasks_share_services (ch : Channel) (e : Env) :
  never_raises ch ->
  trace build ch e =
    map (fun s => mkIssued (user e) [fst s] (compile_command (snd s)) None)
        (services e) /\
  trace start ch e =
    map (fun s => mkIssued (user e) []
                    (detached_launch (fst s ++ "/" ++ snd s)) (Some false))
        (services e) /\
  trace stop ch e =
    rev (map (fun s => mkIssued (user e) [] (kill_command (snd s)) None)
             (services e)).
Proof.
  intros Hch.
  rewrite (complete_trace _ _ ch e build_behaves Hch),
          (complete_trace _ _ ch e start_behaves Hch),
          (complete_trace _ _ ch e stop_behaves Hch).
  repeat split.
  unfold services, start_calls, detached_launch. simpl map.
  rewrite !string_append_assoc. reflexivity.
Qed.

Lemma tasks_share_services_witness :
  never_raises recording_mock /\
  trace build recording_mock sample_env =
    map (fun s => mkIssued "deployer" [fst s] (compile_command (snd s)) None)
        (services sample_env) /\
  trace start recording_mock sample_env =
    map (fun s => mkIssued "deployer" []
                    (detached_launch (fst s ++ "/" ++ snd s)) (Some false))
        (services sample_env) /\
  trace stop recording_mock sample_env =
    rev (map (fun s => mkIssued "deployer" [] (kill_command (snd s)) None)
             (services sample_env)).
Proof.
  split.
  - intros hist i. exists 0%Z. reflexivity.
  - apply (tasks_share_services recording_mock sample_env).
    intros hist i. exists 0%Z. reflexivity.
Defined.

End Further.

(* ------------------------------------------------------------------ *)
(** ** Two runs of [deploy] on a host without a running [webserverd] *)

Section Runs.
Import Fabric Contract Fabfile.

(** The failed [killall] raises: [deploy] ends with that exception after
    its first call. *)
Example deploy_run_raising :
  deploy no_webserverd_running (fresh sample_env) =
  (Raised (RemoteFailure (mkIssued "deployer" [] "killall -9 webserverd" None)),
   mkWorld sample_env []
     [ mkIssued "deployer" [] "killall -9 webserverd" None ]).
Proof. reflexivity. Qed.

(** The failed [killall] only returns its return code: nobody looks at it
    and all eight calls are made. *)
Example deploy_run_warn_only :
  any_failed no_webserverd_warn_only []
    (trace deploy no_webserverd_warn_only sample_env) = true /\
  deploy no_webserverd_warn_only (fresh sample_env) =
  (Normal tt, mkWorld sample_env [] (deploy_calls sample_env [])).
Proof. split; reflexivity. Qed.

(** A format without a place for the argument raises, as in Python. *)
Example format_without_hole :
  PyStr.format "collector" "/srv" = inl PyStr.NotAllArgumentsConverted.
Proof. reflexivity. Qed.

Example format_escaped_percent :
  PyStr.format "100%% of %s" "it" = inr "100% of it".
Proof. reflexivity. Qed.

End Runs.
